(** * RequestSystemFront: session store, remote client and relationship
    controller of [src/ts-app/src/App.tsx].

    The React components are embedded as state transformers: component state
    ([useState] cells) becomes record fields, [sessionStorage] a finite map
    with the user agent's quota policy beside it, and the asynchronous
    handlers run in a small state-and-exception monad
    whose state also records the ordered trace of observable effects. *)

From stdpp Require Import base option list gmap strings.

Open Scope string_scope.

(** ** JavaScript truthiness of the values the code tests *)

(** [if (s)] on a string: every string but the empty one is truthy. *)
Definition truthy_string (s : string) : bool :=
  match s with
  | EmptyString => false
  | String _ _ => true
  end.

(** [if (x)] on a [string | null]: [null] is falsy, a string as above. *)
Definition truthy (x : option string) : bool :=
  match x with
  | None => false
  | Some s => truthy_string s
  end.

(** ** Exceptions and completions *)

(** Exceptions of the run time. *)
Inductive Exn :=
| TypeError (msg : string)
| SyntaxError (msg : string)
| QuotaExceededError (msg : string).

(** How a computation ends: normally with a value, or by throwing (for an
    [async] function: its promise is fulfilled, or rejected). *)
Inductive Completion (A : Type) :=
| Normal (a : A)
| Thrown (e : Exn).
Arguments Normal {A} _.
Arguments Thrown {A} _.

(** ** Session Store ([AuthProvider]) *)

Module Session.

(** The two [useState] cells of [AuthProvider]. *)
Record AuthState := mkAuth {
  token : option string;
  isLoggedIn : bool
}.

(** [useState<string | null>(null)], [useState(false)]. *)
Definition initial : AuthState := mkAuth None false.

(** The key under which the token is persisted. *)
Definition authToken : string := "authToken".

(** The user agent's storage policy: whether [setItem(k, v)] is let
    through when the storage holds the given items. It is the browser's,
    not the program's (quota, storage disabled), so it is a part of the
    tab and no property but the ones stated is assumed of it. *)
Definition Policy : Type := string -> string -> gmap string string -> bool.

(** The provider together with the tab's [sessionStorage] and the policy
    that governs it. *)
Record Tab := mkTab {
  auth : AuthState;
  sessionStorage : gmap string string;
  accepts : Policy
}.

(** A storage that never refuses, and one that refuses an entry of more
    than [n] characters, key and value together. *)
Definition unlimited : Policy := fun _ _ _ => true.

Definition limited (n : nat) : Policy :=
  fun k v _ => Nat.leb (String.length k + String.length v) n.

(** [sessionStorage.getItem(k)]: [null] when the key is absent. *)
Definition getItem (k : string) (st : gmap string string) : option string :=
  st !! k.

(** [sessionStorage.setItem(k, v)]: stores the entry, or throws
    [QuotaExceededError] and stores nothing when the policy refuses. *)
Definition setItem (policy : Policy) (k v : string) (st : gmap string string)
  : Completion unit * gmap string string :=
  if policy k v st
  then (Normal tt, <[k := v]> st)
  else (Thrown (QuotaExceededError "The quota has been exceeded."), st).

Definition removeItem (k : string) (st : gmap string string)
  : gmap string string := delete k st.

(** [login]: setToken(newToken); setIsLoggedIn(true); setItem. The two
    state updates are made before [setItem] runs, so they stand also when
    it throws, and the exception is [login]'s own. *)
Definition login (newToken : string) (t : Tab) : Completion unit * Tab :=
  let '(c, st) :=
    setItem (accepts t) authToken newToken (sessionStorage t) in
  (c, mkTab (mkAuth (Some newToken) true) st (accepts t)).

(** [logout]: setToken(null); setIsLoggedIn(false); removeItem. *)
Definition logout (t : Tab) : Tab :=
  mkTab (mkAuth None false) (removeItem authToken (sessionStorage t))
        (accepts t).

(** The mount effect of [AuthProvider]: the saved token is adopted only
    when [if (savedToken)] passes. *)
Definition restore (t : Tab) : Tab :=
  let savedToken := getItem authToken (sessionStorage t) in
  match savedToken with
  | Some s =>
      if truthy_string s
      then mkTab (mkAuth (Some s) true) (sessionStorage t) (accepts t)
      else t
  | None => t
  end.

(** A new provider instance mounted in a tab whose storage is [st], under
    the policy [policy]: fresh component state, then the mount effect. *)
Definition mount (st : gmap string string) (policy : Policy) : Tab :=
  restore (mkTab initial st policy).

(** A new provider instance in the browser tab of [t] (a reload). *)
Definition reload (t : Tab) : Tab := mount (sessionStorage t) (accepts t).

(** The session invariant of the data model: [isLoggedIn] holds exactly
    when the token is present and non-empty. *)
Definition invariant (a : AuthState) : Prop :=
  isLoggedIn a = true <-> exists s, token a = Some s /\ s <> "".

End Session.

(** ** Data model *)

(** [interface Friend]. *)
Record Friend := mkFriend {
  username : string;
  email : option string
}.

(** [interface FriendRequest]. *)
Record FriendRequest := mkFriendRequest {
  senderName : string
}.

(** The payload of the login endpoint, [{ token: string }]. *)
Record LoginData := mkLoginData {
  login_token : string
}.

Inductive Status := SUCCESS | FAILURE.

#[global] Instance Status_eq_dec : EqDecision Status.
Proof. solve_decision. Defined.

(** [interface ApiResponse<T>]; [data] is [None] when the field is
    [null] or missing. *)
Record ApiResponse (T : Type) := mkResponse {
  status : Status;
  data : option T
}.
Arguments mkResponse {T} _ _.
Arguments status {T} _.
Arguments data {T} _.

(** What the handlers do with a [data] value besides reading it at its
    declared type: test it ([data ? .. : ..], [data || ..]) and print it
    ([String(data)], [message.error(data)]). *)
Class JsValue (T : Type) := {
  js_truthy : T -> bool;
  js_String : T -> string
}.

#[global] Instance JsValue_string : JsValue string :=
  {| js_truthy := truthy_string; js_String := fun s => s |}.

(** A plain object is truthy and prints as [[object Object]]. *)
Definition object_Object : string := "[object Object]".

#[global] Instance JsValue_Friend : JsValue Friend :=
  {| js_truthy := fun _ => true; js_String := fun _ => object_Object |}.

#[global] Instance JsValue_FriendRequest : JsValue FriendRequest :=
  {| js_truthy := fun _ => true; js_String := fun _ => object_Object |}.

#[global] Instance JsValue_LoginData : JsValue LoginData :=
  {| js_truthy := fun _ => true; js_String := fun _ => object_Object |}.

(** [Array.prototype.join(",")] over the printed elements. *)
Fixpoint join_comma (l : list string) : string :=
  match l with
  | [] => ""
  | [s] => s
  | s :: rest => s ++ "," ++ join_comma rest
  end.

(** An array is truthy even when empty and prints as its joined elements. *)
#[global] Instance JsValue_array {T} `{JsValue T} : JsValue (list T) :=
  {| js_truthy := fun _ => true;
     js_String := fun l => join_comma (map js_String l) |}.

(** [x || dflt] at type [T | null | undefined]. *)
Definition or_else {T} `{JsValue T} (x : option T) (dflt : T) : T :=
  match x with
  | Some v => if js_truthy v then v else dflt
  | None => dflt
  end.

(** [x ? String(x) : dflt]. *)
Definition String_or {T} `{JsValue T} (x : option T) (dflt : string) : string :=
  match x with
  | Some v => if js_truthy v then js_String v else dflt
  | None => dflt
  end.

(** ** Transport *)

(** [RequestInit] as the code builds it; a field is [None] when the key is
    not written in the object literal. *)
Record RequestInit := mkInit {
  init_method : option string;
  init_headers : option (gmap string string);
  init_body : option string
}.

(** The default [options = {}]. *)
Definition no_options : RequestInit := mkInit None None None.

(** What [fetch] is finally called with. *)
Record Request := mkRequest {
  req_url : string;
  req_init : RequestInit
}.

(** The [Response] object: its [json()] either parses to an envelope or
    rejects because the body is not JSON. *)
Record Response (T : Type) := mkHttp {
  http_json : option (ApiResponse T)
}.
Arguments mkHttp {T} _.
Arguments http_json {T} _.

(** What the network does with a request: the environment's answer, an
    input of every remote call. *)
Inductive Reply (T : Type) :=
| Unreachable
| Responded (r : Response T).
Arguments Unreachable {T}.
Arguments Responded {T} _.

(** The reply is a transport-level failure: the network is unreachable or
    the body is malformed. *)
Definition transport_failure {T} (reply : Reply T) : bool :=
  match reply with
  | Unreachable => true
  | Responded r => match http_json r with None => true | Some _ => false end
  end.

(** The envelope carried by a reply, when there is one. *)
Definition envelope {T} (reply : Reply T) : option (ApiResponse T) :=
  match reply with
  | Unreachable => None
  | Responded r => http_json r
  end.

(** ** Component state and observable effects *)

(** [message.success] / [message.error]. *)
Inductive Level := success | error.

(** The observable effects of a handler, in the order they happen. *)
Inductive Event :=
| EvFetch (req : Request)            (* [fetch(url, init)] is called *)
| EvSettled (st : option Status)     (* the awaited call settled: fulfilled
                                        with an envelope of that status, or
                                        rejected ([None]) *)
| EvSetFriends (now : list Friend)   (* [setFriends] ran *)
| EvSetRequests (now : list FriendRequest)  (* [setRequests] ran *)
| EvMessage (lvl : Level) (text : string)
| EvResetFields                      (* [form.resetFields()] *)
| EvOnSuccess.                       (* the page's [onSuccess] callback *)

(** The state the handlers close over: the provider and its storage, the
    [useState] cells of the two panels and of the two pages, the request
    form, and the trace of effects so far. *)
Record World := mkWorld {
  tab : Session.Tab;
  friends : list Friend;
  friendsLoading : bool;
  requests : list FriendRequest;
  requestsLoading : bool;
  sendingRequest : bool;
  formFields : gmap string string;
  loginLoading : bool;
  registerLoading : bool;
  trace : list Event
}.

Definition log (e : Event) (w : World) : World :=
  mkWorld (tab w) (friends w) (friendsLoading w) (requests w)
          (requestsLoading w) (sendingRequest w) (formFields w)
          (loginLoading w) (registerLoading w) (trace w ++ [e]).

Definition with_tab (t : Session.Tab) (w : World) : World :=
  mkWorld t (friends w) (friendsLoading w) (requests w)
          (requestsLoading w) (sendingRequest w) (formFields w)
          (loginLoading w) (registerLoading w) (trace w).

Definition with_friends (l : list Friend) (w : World) : World :=
  mkWorld (tab w) l (friendsLoading w) (requests w)
          (requestsLoading w) (sendingRequest w) (formFields w)
          (loginLoading w) (registerLoading w) (trace w).

Definition with_friendsLoading (b : bool) (w : World) : World :=
  mkWorld (tab w) (friends w) b (requests w)
          (requestsLoading w) (sendingRequest w) (formFields w)
          (loginLoading w) (registerLoading w) (trace w).

Definition with_requests (l : list FriendRequest) (w : World) : World :=
  mkWorld (tab w) (friends w) (friendsLoading w) l
          (requestsLoading w) (sendingRequest w) (formFields w)
          (loginLoading w) (registerLoading w) (trace w).

Definition with_requestsLoading (b : bool) (w : World) : World :=
  mkWorld (tab w) (friends w) (friendsLoading w) (requests w)
          b (sendingRequest w) (formFields w)
          (loginLoading w) (registerLoading w) (trace w).

Definition with_sendingRequest (b : bool) (w : World) : World :=
  mkWorld (tab w) (friends w) (friendsLoading w) (requests w)
          (requestsLoading w) b (formFields w)
          (loginLoading w) (registerLoading w) (trace w).

Definition with_formFields (f : gmap string string) (w : World) : World :=
  mkWorld (tab w) (friends w) (friendsLoading w) (requests w)
          (requestsLoading w) (sendingRequest w) f
          (loginLoading w) (registerLoading w) (trace w).

Definition with_loginLoading (b : bool) (w : World) : World :=
  mkWorld (tab w) (friends w) (friendsLoading w) (requests w)
          (requestsLoading w) (sendingRequest w) (formFields w)
          b (registerLoading w) (trace w).

Definition with_registerLoading (b : bool) (w : World) : World :=
  mkWorld (tab w) (friends w) (friendsLoading w) (requests w)
          (requestsLoading w) (sendingRequest w) (formFields w)
          (loginLoading w) b (trace w).

(** A freshly mounted application in a tab with empty storage. *)
Definition world0 : World :=
  mkWorld (Session.mkTab Session.initial ∅ Session.unlimited)
          [] true [] true false ∅ false false [].

(** ** The monad of the asynchronous handlers *)

Definition Async (A : Type) : Type := World -> Completion A * World.

Definition ret {A} (a : A) : Async A := fun w => (Normal a, w).

Definition throw {A} (e : Exn) : Async A := fun w => (Thrown e, w).

Definition bind {A B} (m : Async A) (k : A -> Async B) : Async B :=
  fun w =>
    match m w with
    | (Normal a, w') => k a w'
    | (Thrown e, w') => (Thrown e, w')
    end.

Declare Scope async_scope.
Delimit Scope async_scope with async.
Notation "x <- m ;; k" := (bind m (fun x => k))
  (at level 100, m at next level, right associativity) : async_scope.
Notation "m ;;; k" := (bind m (fun _ => k))
  (at level 100, right associativity) : async_scope.
Open Scope async_scope.

(** [try { body } catch (err) { handler } finally { fin }]. *)
Definition try_catch_finally {A} (body : Async A) (handler : Exn -> Async A)
    (fin : Async unit) : Async A :=
  fun w =>
    let '(c, w1) := body w in
    let '(c', w2) :=
      match c with
      | Normal a => (Normal a, w1)
      | Thrown e => handler e w1
      end in
    match fin w2 with
    | (Normal _, w3) => (c', w3)
    | (Thrown e, w3) => (Thrown e, w3)
    end.

(** [try { body } catch (err) { handler }]. *)
Definition try_catch {A} (body : Async A) (handler : Exn -> Async A) : Async A :=
  try_catch_finally body handler (ret tt).

(** Run a handler: the state it leaves. *)
Definition exec {A} (m : Async A) (w : World) : World := snd (m w).

(** Run a handler: how it completes. *)
Definition completion {A} (m : Async A) (w : World) : Completion A := fst (m w).

(** State primitives. *)
Definition modify (f : World -> World) : Async unit := fun w => (Normal tt, f w).

Definition emit (e : Event) : Async unit := modify (log e).

(** [setFriends(updater)]: the new value is computed from the current one. *)
Definition setFriends (f : list Friend -> list Friend) : Async unit :=
  fun w => let now := f (friends w) in
           (Normal tt, log (EvSetFriends now) (with_friends now w)).

Definition setRequests (f : list FriendRequest -> list FriendRequest) : Async unit :=
  fun w => let now := f (requests w) in
           (Normal tt, log (EvSetRequests now) (with_requests now w)).

Definition message_success (text : string) : Async unit := emit (EvMessage success text).
Definition message_error (text : string) : Async unit := emit (EvMessage error text).

Definition resetFields : Async unit :=
  modify (fun w => log EvResetFields (with_formFields ∅ w)).

Definition onSuccess : Async unit := emit EvOnSuccess.

(** The context's [login], run from a handler: it completes as [login]
    does, and leaves the provider as [login] left it. *)
Definition auth_login (newToken : string) : Async unit :=
  fun w =>
    let '(c, t) := Session.login newToken (tab w) in
    (c, with_tab t w).

(** ** Remote Client *)

Definition API_BASE : string := "http://localhost:80".

(** [...h] inside an object literal: nothing when [h] is undefined. *)
Definition spread (h : option (gmap string string)) : gmap string string :=
  default ∅ h.

(** [fetch(url, init)]: rejects when the network is unreachable. *)
Definition fetch {T} (url : string) (init : RequestInit) (reply : Reply T)
  : Async (Response T) :=
  emit (EvFetch (mkRequest url init)) ;;;
  match reply with
  | Unreachable => throw (TypeError "Failed to fetch")
  | Responded r => ret r
  end.

(** [response.json()]: rejects when the body is not JSON. *)
Definition json {T} (r : Response T) : Async (ApiResponse T) :=
  match http_json r with
  | Some e => ret e
  | None => throw (SyntaxError "Unexpected token in JSON")
  end.

(** [apiCall]: the init object is
    [{ headers: { 'Content-Type': .., ...options.headers }, ...options }],
    so a [headers] key of [options] replaces the merged one. There is no
    [try] here: a rejection of [fetch] or of [json()] is the call's own. *)
Definition apiCall {T} (endpoint : string) (options : RequestInit)
    (reply : Reply T) : Async (ApiResponse T) :=
  let merged :=
    spread (init_headers options) ∪ {["Content-Type" := "application/json"]} in
  let init :=
    mkInit (init_method options)
           (Some (default merged (init_headers options)))
           (init_body options) in
  response <- fetch (API_BASE ++ endpoint) init reply ;;
  json response.

(** [authenticatedApiCall]:
    [{ ...options, headers: { 'Authorization': `Bearer ${token}`, ...options.headers } }]. *)
Definition authenticatedApiCall {T} (endpoint : string) (token : string)
    (options : RequestInit) (reply : Reply T) : Async (ApiResponse T) :=
  apiCall endpoint
    (mkInit (init_method options)
            (Some (spread (init_headers options)
                     ∪ {["Authorization" := "Bearer " ++ token]}))
            (init_body options))
    reply.

(** [await call] in a handler: the handler resumes when the call settles;
    the trace records the settlement. *)
Definition await {T} (call : Async (ApiResponse T)) : Async (ApiResponse T) :=
  fun w =>
    let '(c, w') := call w in
    let settled :=
      match c with
      | Normal r => Some (status r)
      | Thrown _ => None
      end in
    (c, log (EvSettled settled) w').

(** [if (!token) return;] in front of a handler body. *)
Definition guard_token (tok : option string) (body : string -> Async unit)
  : Async unit :=
  match tok with
  | Some token => if truthy_string token then body token else ret tt
  | None => ret tt
  end.

Definition with_method (m : string) : RequestInit := mkInit (Some m) None None.

(** ** Login and registration pages *)

(** [LoginPage.handleSubmit]; [body] is [JSON.stringify(values)]. *)
Definition login_handleSubmit (body : string) (reply : Reply LoginData)
  : Async unit :=
  modify (with_loginLoading true) ;;;
  try_catch_finally
    (response <- await (apiCall "/api/v1/auth/user/login"
                          (mkInit (Some "POST") None (Some body)) reply) ;;
     match status response with
     | SUCCESS =>
         match data response with
         | Some d =>
             auth_login (login_token d) ;;;
             message_success "Успішний вхід!" ;;;
             onSuccess
         | None => throw (TypeError "Cannot read properties of undefined")
         end
     | FAILURE => message_error "Помилка входу"
     end)
    (fun _ => message_error "Помилка підключення")
    (modify (with_loginLoading false)).

(** [RegisterPage.handleSubmit]; the envelope is [ApiResponse<any>], and
    [message.error(response.data || ..)] shows a truthy [data] as printed. *)
Definition register_handleSubmit {T} `{JsValue T} (body : string)
    (reply : Reply T) : Async unit :=
  modify (with_registerLoading true) ;;;
  try_catch_finally
    (response <- await (apiCall "/api/v1/auth/user/register"
                          (mkInit (Some "POST") None (Some body)) reply) ;;
     match status response with
     | SUCCESS => message_success "Реєстрація успішна!" ;;; onSuccess
     | FAILURE =>
         message_error (String_or (data response) "Помилка реєстрації")
     end)
    (fun _ => message_error "Помилка з'єднання з сервером")
    (modify (with_registerLoading false)).

(** ** Relationship State Controller *)

(** [FriendsPanel.loadFriends]. *)
Definition loadFriends (tok : option string) (reply : Reply (list Friend))
  : Async unit :=
  guard_token tok (fun token =>
    try_catch_finally
      (response <- await (authenticatedApiCall "/api/v1/friendship/friends"
                            token no_options reply) ;;
       match status response with
       | SUCCESS => setFriends (fun _ => or_else (data response) [])
       | FAILURE => ret tt
       end)
      (fun _ => message_error "Помилка завантаження друзів")
      (modify (with_friendsLoading false))).

(** [FriendsPanel.removeFriend]; the envelope is untyped. *)
Definition removeFriend {T} (tok : option string) (friendId : string)
    (reply : Reply T) : Async unit :=
  guard_token tok (fun token =>
    try_catch
      (response <- await (authenticatedApiCall
                            ("/api/v1/friendship/delete/" ++ friendId)
                            token (with_method "DELETE") reply) ;;
       match status response with
       | SUCCESS =>
           setFriends (filter (fun f => username f ≠ friendId)) ;;;
           message_success "Друга видалено"
       | FAILURE => ret tt
       end)
      (fun _ => message_error "Помилка видалення друга")).

(** [FriendRequestsPanel.loadRequests]. *)
Definition loadRequests (tok : option string)
    (reply : Reply (list FriendRequest)) : Async unit :=
  guard_token tok (fun token =>
    try_catch_finally
      (response <- await (authenticatedApiCall "/api/v1/friendship/requests"
                            token no_options reply) ;;
       match status response with
       | SUCCESS => setRequests (fun _ => or_else (data response) [])
       | FAILURE =>
           message_error
             (String_or (data response) "Помилка завантаження запитів")
       end)
      (fun _ => message_error "Помилка завантаження запитів")
      (modify (with_requestsLoading false))).

(** [FriendRequestsPanel.sendFriendRequest], with [values.username]. *)
Definition sendFriendRequest (tok : option string) (values_username : string)
    (reply : Reply string) : Async unit :=
  guard_token tok (fun token =>
    modify (with_sendingRequest true) ;;;
    try_catch_finally
      (response <- await (authenticatedApiCall
                            ("/api/v1/friendship/request/" ++ values_username)
                            token (with_method "POST") reply) ;;
       match status response with
       | SUCCESS => resetFields ;;; message_success "Запит надіслано"
       | FAILURE =>
           message_error (or_else (data response) "Помилка надсилання запиту")
       end)
      (fun _ => message_error "Помилка надсилання запиту")
      (modify (with_sendingRequest false))).

(** [FriendRequestsPanel.acceptRequest]; the envelope is [ApiResponse<any>]. *)
Definition acceptRequest {T} `{JsValue T} (tok : option string)
    (sender : string) (reply : Reply T) : Async unit :=
  guard_token tok (fun token =>
    try_catch
      (response <- await (authenticatedApiCall
                            ("/api/v1/friendship/accept/" ++ sender)
                            token (with_method "PUT") reply) ;;
       match status response with
       | SUCCESS =>
           setRequests (filter (fun r => senderName r ≠ sender)) ;;;
           message_success "Запит прийнято"
       | FAILURE =>
           message_error (String_or (data response) "Помилка прийняття запиту")
       end)
      (fun _ => message_error "Помилка прийняття запиту")).

(** [FriendRequestsPanel.declineRequest]; the envelope is [ApiResponse<any>]. *)
Definition declineRequest {T} `{JsValue T} (tok : option string)
    (sender : string) (reply : Reply T) : Async unit :=
  guard_token tok (fun token =>
    try_catch
      (response <- await (authenticatedApiCall
                            ("/api/v1/friendship/decline/" ++ sender)
                            token (with_method "PUT") reply) ;;
       match status response with
       | SUCCESS =>
           setRequests (filter (fun r => senderName r ≠ sender)) ;;;
           message_success "Запит відхилено"
       | FAILURE =>
           message_error (String_or (data response) "Помилка відхилення запиту")
       end)
      (fun _ => message_error "Помилка відхилення запиту")).

(** The six controller operations as one type: the operation, its argument
    and the network's reply to its remote call. The three operations whose
    envelope is untyped carry the type of its [data]. *)
Inductive Invocation :=
| LoadFriends (reply : Reply (list Friend))
| LoadRequests (reply : Reply (list FriendRequest))
| SendRequest (target : string) (reply : Reply string)
| AcceptRequest {T} `{JsValue T} (sender : string) (reply : Reply T)
| DeclineRequest {T} `{JsValue T} (sender : string) (reply : Reply T)
| RemoveFriend {T} (friendId : string) (reply : Reply T).

(** Run an invocation with the token the panel read from the context. *)
Definition perform (tok : option string) (i : Invocation) : Async unit :=
  match i with
  | LoadFriends reply => loadFriends tok reply
  | LoadRequests reply => loadRequests tok reply
  | SendRequest target reply => sendFriendRequest tok target reply
  | AcceptRequest sender reply => acceptRequest tok sender reply
  | DeclineRequest sender reply => declineRequest tok sender reply
  | RemoveFriend friendId reply => removeFriend tok friendId reply
  end.

(** The status of the envelope the invocation's remote call resolves with;
    [None] when the call fails at the transport level. *)
Definition resolved_status (i : Invocation) : option Status :=
  match i with
  | LoadFriends reply => status <$> envelope reply
  | LoadRequests reply => status <$> envelope reply
  | SendRequest _ reply => status <$> envelope reply
  | AcceptRequest _ reply => status <$> envelope reply
  | DeclineRequest _ reply => status <$> envelope reply
  | RemoveFriend _ reply => status <$> envelope reply
  end.

(** A reply that carries the given envelope. *)
Definition replying {T} (st : Status) (d : option T) : Reply T :=
  Responded (mkHttp (Some (mkResponse st d))).

(** A reply whose body is not JSON. *)
Definition malformed {T} : Reply T := Responded (mkHttp None).

(** ** Reading the trace *)

(** The event is a write to one of the two collections. *)
Definition mutation (e : Event) : bool :=
  match e with
  | EvSetFriends _ | EvSetRequests _ => true
  | _ => false
  end.

(** The event is a request going out. *)
Definition is_fetch (e : Event) : bool :=
  match e with
  | EvFetch _ => true
  | _ => false
  end.

(** The texts shown by [message.error], in order. *)
Fixpoint errors_shown (tr : list Event) : list string :=
  match tr with
  | [] => []
  | EvMessage error text :: tr' => text :: errors_shown tr'
  | _ :: tr' => errors_shown tr'
  end.

(** Every collection write of the trace comes after a settlement with a
    [SUCCESS] envelope, with no new request in between; [ok] tells whether
    such a settlement is already behind us. *)
Fixpoint server_confirmed (ok : bool) (tr : list Event) : bool :=
  match tr with
  | [] => true
  | EvFetch _ :: tr' => server_confirmed false tr'
  | EvSettled (Some SUCCESS) :: tr' => server_confirmed true tr'
  | EvSettled _ :: tr' => server_confirmed false tr'
  | e :: tr' => (if mutation e then ok else true) && server_confirmed ok tr'
  end.

(** ** The spec's de-duplication *)

(** The spec's [dedupe]: a collection keyed by identifier keeps one entry
    per identifier, the first one. The source has no such function; this
    definition follows the spec's words and is only compared with what
    the handlers store. *)
Fixpoint spec_dedupe {A} (key : A -> string) (l : list A) : list A :=
  match l with
  | [] => []
  | x :: rest => x :: filter (fun y => key y ≠ key x) (spec_dedupe key rest)
  end.

(** ** Concrete values used in examples *)


(** A tab whose storage takes no entry longer than sixteen characters. *)
Definition tab_small : Session.Tab :=
  Session.mkTab Session.initial ∅ (Session.limited 16).
Definition long_token : string := "0123456789abcdef0123456789abcdef".
Definition alice : Friend := mkFriend "alice" (Some "alice@example.org").
Definition dave : Friend := mkFriend "dave" None.
Definition carol_request : FriendRequest := mkFriendRequest "carol".
Definition bob_request : FriendRequest := mkFriendRequest "bob".

Definition world_inbox : World :=
  with_requests [carol_request; bob_request] world0.
Definition world_form : World :=
  with_formFields {["username" := "bob"]}
    (with_requests [carol_request] world0).

(** ** Reading more of the trace *)

(** The effects a handler appends to the trace when run from [w]. *)
Definition effects {A} (m : Async A) (w : World) : list Event :=
  drop (length (trace w)) (trace (exec m w)).

(** The requests handed to [fetch], in order. *)
Fixpoint fetched (tr : list Event) : list Request :=
  match tr with
  | [] => []
  | EvFetch req :: tr' => req :: fetched tr'
  | _ :: tr' => fetched tr'
  end.

(** The texts shown by [message.success], in order. *)
Fixpoint successes_shown (tr : list Event) : list string :=
  match tr with
  | [] => []
  | EvMessage success text :: tr' => text :: successes_shown tr'
  | _ :: tr' => successes_shown tr'
  end.

(** How many times the page's [onSuccess] callback ran. *)
Fixpoint onSuccess_calls (tr : list Event) : nat :=
  match tr with
  | [] => 0
  | EvOnSuccess :: tr' => S (onSuccess_calls tr')
  | _ :: tr' => onSuccess_calls tr'
  end.

(** The token a login reply delivers: [response.data.token] of a [SUCCESS]
    envelope that has a [data]. *)
Definition delivered_token (reply : Reply LoginData) : option string :=
  match envelope reply with
  | Some (mkResponse SUCCESS (Some d)) => Some (login_token d)
  | _ => None
  end.

(** ** The application shell ([App], [AppContent], [Dashboard]) *)

(** [currentView], the [useState] cell of [App]. *)
Inductive View := view_login | view_register | view_dashboard.

(** What [AppContent] renders: the dashboard, one of the two pages, or a
    [div] with neither page in it. *)
Inductive Screen :=
| DashboardScreen
| LoginScreen
| RegisterScreen
| EmptyScreen.

Record AppState := mkApp {
  app_world : World;
  currentView : View
}.

(** [AppContent]: [if (isLoggedIn) return <Dashboard />], else the page
    selected by [currentView === 'login'] / [currentView === 'register']. *)
Definition AppContent (a : AppState) : Screen :=
  if Session.isLoggedIn (Session.auth (tab (app_world a)))
  then DashboardScreen
  else match currentView a with
       | view_login => LoginScreen
       | view_register => RegisterScreen
       | view_dashboard => EmptyScreen
       end.

(** The application mounted in a tab whose storage is [st], under the
    policy [policy]: [useState('login')] and the provider's mount effect. *)
Definition App_mount (st : gmap string string) (policy : Session.Policy)
  : AppState :=
  mkApp (with_tab (Session.mount st policy) world0) view_login.

(** A page handler run with [onSuccess = () => setCurrentView(target)]:
    the callback reads no state, so it is applied when the handler's
    effects contain a call of [onSuccess]. *)
Definition with_onSuccess (h : Async unit) (target : View) (a : AppState)
  : AppState :=
  mkApp (exec h (app_world a))
        (match onSuccess_calls (effects h (app_world a)) with
         | O => currentView a
         | S _ => target
         end).

(** [<LoginPage onSuccess={() => setCurrentView('dashboard')} />]. *)
Definition LoginPage_submit (body : string) (reply : Reply LoginData)
  : AppState -> AppState :=
  with_onSuccess (login_handleSubmit body reply) view_dashboard.

(** [<RegisterPage onSuccess={() => setCurrentView('login')} />]. *)
Definition RegisterPage_submit {T} `{JsValue T} (body : string)
    (reply : Reply T) : AppState -> AppState :=
  with_onSuccess (register_handleSubmit body reply) view_login.

(** The two link buttons under the pages. *)
Definition show_register (a : AppState) : AppState :=
  mkApp (app_world a) view_register.

Definition show_login (a : AppState) : AppState :=
  mkApp (app_world a) view_login.

(** The dashboard's button, [onClick={logout}]. *)
Definition Dashboard_logout (a : AppState) : AppState :=
  mkApp (with_tab (Session.logout (tab (app_world a))) (app_world a))
        (currentView a).

(** A controller operation run from the dashboard with the token of the
    context. *)
Definition Dashboard_perform (i : Invocation) (a : AppState) : AppState :=
  mkApp (exec (perform (Session.token (Session.auth (tab (app_world a)))) i)
              (app_world a))
        (currentView a).

(** * Session Store *)

Section SessionStore.
Import Session.

Lemma truthy_string_true (s : string) : truthy_string s = true <-> s ≠ "".
Proof. destruct s; simpl; split; intros; congruence. Qed.

Lemma truthy_string_false (s : string) : truthy_string s = false <-> s = "".
Proof. destruct s; simpl; split; intros; congruence. Qed.

(** The component state after [login], whether or not [setItem] threw. *)
Lemma login_auth (s : string) (t : Tab) :
  auth (snd (login s t)) = mkAuth (Some s) true.
Proof. unfold login, setItem. by destruct (accepts t _ _ _). Qed.

Lemma login_policy (s : string) (t : Tab) :
  accepts (snd (login s t)) = accepts t.
Proof. unfold login, setItem. by destruct (accepts t _ _ _). Qed.

(** [login] completes normally exactly when the storage takes the token. *)
Lemma login_completes (s : string) (t : Tab) :
  fst (login s t) = Normal tt
  <-> accepts t authToken s (sessionStorage t) = true.
Proof. unfold login, setItem. by destruct (accepts t _ _ _). Qed.


Lemma login_refused (s : string) (t : Tab) :
  accepts t authToken s (sessionStorage t) = false ->
  (exists e, fst (login s t) = Thrown e)
  /\ sessionStorage (snd (login s t)) = sessionStorage t.
Proof.
  intros Hno. unfold login, setItem. rewrite Hno. simpl. eauto.
Qed.


Lemma invariant_initial : invariant initial.
Proof.
  unfold invariant; simpl; split; [discriminate|].
  intros (s & Hs & _); discriminate.
Qed.

Lemma restore_saved (s : string) (t : Tab) :
  getItem authToken (sessionStorage t) = Some s -> s ≠ "" ->
  auth (restore t) = mkAuth (Some s) true.
Proof.
  intros Hget Hs. unfold restore. rewrite Hget.
  apply truthy_string_true in Hs. by rewrite Hs.
Qed.


Lemma restore_invariant (t : Tab) :
  invariant (auth t) -> invariant (auth (restore t)).
Proof.
  intros Hinv. unfold restore.
  destruct (getItem _ _) as [s|] eqn:Hget; [|done].
  destruct (truthy_string s) eqn:Hs; [|done].
  simpl. split; [|done]. intros _. exists s. split; [done|].
  by apply truthy_string_true.
Qed.

(** Where the session invariant does hold: after [logout()], across the
    mount effect, in a freshly mounted instance, and after [login(t)] for a
    non-empty [t], whether or not the storage took the token. *)
Lemma invariant_kept (t : Tab) (s : string) :
  s ≠ "" ->
  invariant (auth (snd (login s t)))
  /\ invariant (auth (logout t))
  /\ (invariant (auth t) -> invariant (auth (restore t)))
  /\ invariant (auth (reload t)).
Proof.
  intros Hs. split; [|split; [|split]].
  - rewrite login_auth. split; [|done]. intros _. by exists s.
  - split; [discriminate|]. intros (s' & Hs' & _). discriminate.
  - apply restore_invariant.
  - apply (restore_invariant (mkTab initial _ _)), invariant_initial.
Qed.

End SessionStore.

(** C3 at its failing input: [login] marks the session active whatever the
    token is. After [login("")], from any tab, the session is active while
    its token is the empty string, which the mount effect and every
    [if (!token) return] guard take for no token; the invariant
    "[isLoggedIn] iff the token is present and non-empty" is broken. *)
Theorem login_empty_breaks_invariant (t : Session.Tab) :
  let a := Session.auth (snd (Session.login "" t)) in
  Session.isLoggedIn a = true
  /\ Session.token a = Some ""
  /\ truthy (Session.token a) = false
  /\ ~ Session.invariant a.
Proof.
  cbv zeta. rewrite login_auth. simpl. repeat split.
  unfold Session.invariant; simpl. intros [Hactive _].
  destruct (Hactive eq_refl) as (s & Hs & Hne).
  injection Hs as <-. by apply Hne.
Qed.




(** * Relationship State Controller *)

(** Unfold a handler down to the state primitives. *)
Ltac unfold_handler :=
  unfold perform, loadFriends, loadRequests, sendFriendRequest, acceptRequest,
    declineRequest, removeFriend, login_handleSubmit, register_handleSubmit,
    guard_token, try_catch, try_catch_finally, await, authenticatedApiCall,
    apiCall, fetch, json, resetFields, onSuccess, auth_login,
    Session.login, Session.setItem,
    message_success, message_error, emit, setFriends, setRequests, modify,
    bind, ret, throw, exec, completion, replying, malformed in *.

(** The three shapes of a reply: unreachable, an envelope [st],[d], or a
    malformed body. *)
Ltac case_reply reply :=
  let st := fresh "st" in
  let d := fresh "d" in
  destruct reply as [|[[[st d]|]]].

(** Split on whether the storage takes the entry [setItem] is given. *)
Ltac case_storage :=
  match goal with
  | |- context [Session.accepts ?t ?k ?v ?st] =>
      destruct (Session.accepts t k v st) eqn:?
  end.

(** Run a handler whose token passed the guard ([Hs]) and flatten the trace
    it appended. *)
Ltac run_handler Hs :=
  unfold_handler; simpl; rewrite ?Hs; simpl; rewrite <- ?app_assoc; simpl.

Lemma guard_token_falsy (tok : option string) (body : string -> Async unit)
    (w : World) :
  truthy tok = false -> guard_token tok body w = (Normal tt, w).
Proof.
  unfold guard_token, truthy. destruct tok as [s|]; [|done].
  by intros ->.
Qed.

Lemma truthy_Some (tok : option string) :
  truthy tok = true -> exists token, tok = Some token /\ truthy_string token = true.
Proof. destruct tok as [s|]; [|done]. intros Hs. by exists s. Qed.

Lemma perform_no_token (tok : option string) (i : Invocation) (w : World) :
  truthy tok = false -> perform tok i w = (Normal tt, w).
Proof.
  intros Htok. destruct i; simpl;
    unfold loadFriends, loadRequests, sendFriendRequest, acceptRequest,
      declineRequest, removeFriend;
    by apply guard_token_falsy.
Qed.

Lemma errors_shown_app (tr1 tr2 : list Event) :
  errors_shown (tr1 ++ tr2) = (errors_shown tr1 ++ errors_shown tr2)%list.
Proof.
  induction tr1 as [|e tr1 IH]; [done|].
  destruct e as [| | | |[] text| |]; simpl; by rewrite ?IH.
Qed.

(** The ordering predicate tells traces apart. *)
Example server_confirmed_accepts :
  server_confirmed false
    [EvFetch (mkRequest "u" no_options); EvSettled (Some SUCCESS);
     EvSetFriends [dave]] = true.
Proof. reflexivity. Qed.

Example server_confirmed_rejects_speculation :
  server_confirmed false
    [EvFetch (mkRequest "u" no_options); EvSetFriends [dave];
     EvSettled (Some SUCCESS)] = false.
Proof. reflexivity. Qed.

Example server_confirmed_rejects_failure :
  server_confirmed false
    [EvFetch (mkRequest "u" no_options); EvSettled (Some FAILURE);
     EvSetFriends [dave]] = false.
Proof. reflexivity. Qed.

(** C8: an operation invoked while the session has no token (the token is
    [null], or empty) returns at its guard: no request is issued, nothing is
    displayed and the whole state, in particular [friends] and [requests]
    and the trace of requests, is left as it was. *)
Theorem no_token_no_call (tok : option string) (i : Invocation) (w : World) :
  truthy tok = false ->
  perform tok i w = (Normal tt, w)
  /\ friends (exec (perform tok i) w) = friends w
  /\ requests (exec (perform tok i) w) = requests w
  /\ filter (fun e => is_fetch e = true) (trace (exec (perform tok i) w))
     = filter (fun e => is_fetch e = true) (trace w).
Proof.
  intros Htok. unfold exec. by rewrite perform_no_token.
Qed.

Lemma no_token_no_call_witness :
  perform None (RemoveFriend "dave" (replying (T:=string) SUCCESS None))
          (with_friends [dave] world0)
  = (Normal tt, with_friends [dave] world0).
Proof.
  refine (proj1 (no_token_no_call None _ _ _)). reflexivity.
Defined.

(** C5: whatever the token, the operation and the network's reply, the
    effects an operation appends to the trace are server-confirmed: a write
    to [friends] or [requests] comes only after the operation's remote call
    settled with a [SUCCESS] envelope, never between the request and its
    settlement; and unless the call resolved with [SUCCESS] (so also when it
    resolved with [FAILURE] or threw) the operation writes to neither
    collection and both keep their value. *)
Theorem mutation_only_after_success (tok : option string) (i : Invocation)
    (w : World) :
  exists delta,
    trace (exec (perform tok i) w) = (trace w ++ delta)%list
    /\ server_confirmed false delta = true
    /\ (resolved_status i = Some SUCCESS
        \/ (forallb (fun e => negb (mutation e)) delta = true
            /\ friends (exec (perform tok i) w) = friends w
            /\ requests (exec (perform tok i) w) = requests w)).
Proof.
  destruct (truthy tok) eqn:Htok.
  - apply truthy_Some in Htok as (token & -> & Hs).
    destruct i as [reply|reply|target reply|T JV sender reply
                  |T JV sender reply|T friendId reply];
      case_reply reply; try destruct st; run_handler Hs;
      (eexists; split; [reflexivity|]; split; [reflexivity|]); simpl;
      first [by left | by right].
  - exists []. unfold exec. rewrite perform_no_token by done. simpl.
    rewrite app_nil_r. split; [done|]. split; [done|]. by right.
Qed.

(** ** Loading *)

(** An array is always truthy, so [data || []] is the payload itself. *)
Lemma or_else_array {T} `{JsValue T} (d : option (list T)) :
  or_else d [] = default [] d.
Proof. by destruct d. Qed.

(** C2, as stated, fails: the payload is stored as it arrives. A payload
    with the same identifier twice leaves [friends] with both entries, which
    no de-duplication returns. *)
Lemma loadFriends_keeps_duplicates :
  friends (exec (loadFriends (Some "abc123")
                   (replying SUCCESS (Some [alice; alice]))) world0)
  <> spec_dedupe username [alice; alice].
Proof. vm_compute. discriminate. Qed.

(** C2 (amended): on a [SUCCESS] envelope [loadFriends] (resp.
    [loadRequests]) replaces [friends] (resp. [requests]) by the payload
    exactly as delivered, duplicates included, whatever the collection held
    before; an absent payload gives the empty collection. *)
Theorem load_replaces_with_payload (tok : option string)
    (P : option (list Friend)) (Q : option (list FriendRequest)) (w : World) :
  truthy tok = true ->
  friends (exec (loadFriends tok (replying SUCCESS P)) w)
    = match P with Some l => l | None => [] end
  /\ requests (exec (loadRequests tok (replying SUCCESS Q)) w)
    = match Q with Some l => l | None => [] end.
Proof.
  intros Htok. apply truthy_Some in Htok as (token & -> & Hs).
  split; run_handler Hs; apply or_else_array.
Qed.

Lemma load_replaces_with_payload_witness :
  friends (exec (loadFriends (Some "abc123")
                   (replying SUCCESS (Some [alice; alice])))
                (with_friends [dave] world0))
  = [alice; alice].
Proof.
  refine (proj1 (load_replaces_with_payload (Some "abc123")
                   (Some [alice; alice]) None _ _)).
  reflexivity.
Defined.

(** The spec's [dedupe] does return a collection without duplicate
    identifiers, which what [loadFriends] stored above is not. *)
Lemma spec_dedupe_elem {A} (key : A -> string) (l : list A) (x : A) :
  x ∈ spec_dedupe key l -> x ∈ l.
Proof.
  revert x. induction l as [|y l IH]; intros x; simpl; [done|].
  rewrite !elem_of_cons, list_elem_of_filter. intros [->|[_ Hin]]; auto.
Qed.

Lemma spec_dedupe_NoDup {A} (key : A -> string) (l : list A) :
  NoDup (key <$> spec_dedupe key l).
Proof.
  induction l as [|x l IH]; simpl; [constructor|].
  apply NoDup_cons. split.
  - rewrite list_elem_of_fmap. intros (y & Hkey & Hin).
    apply list_elem_of_filter in Hin as [Hne _]. by apply Hne.
  - apply (sublist_NoDup _ _ IH).
    apply (fmap_sublist key), sublist_filter.
Qed.

Lemma loadFriends_result_has_duplicates :
  ~ NoDup (username <$>
             friends (exec (loadFriends (Some "abc123")
                              (replying SUCCESS (Some [alice; alice])))
                           world0)).
Proof.
  change (~ NoDup ["alice"; "alice"]).
  rewrite NoDup_cons. intros [Hnotin _]. apply Hnotin. by left.
Qed.

(** ** Removal by filter *)

Section Removal.
Context {A : Type} (key : A -> string) (id : string).

Local Abbreviation keep := (fun x : A => key x ≠ id).

Lemma filter_keep_absent (l : list A) :
  Forall (fun x => key x ≠ id) (filter keep l).
Proof.
  induction l as [|x l IH]; [constructor|].
  rewrite filter_cons. destruct (decide (keep x)); [|done].
  by constructor.
Qed.

Lemma filter_keep_fixpoint (l : list A) :
  Forall (fun x => key x ≠ id) l -> filter keep l = l.
Proof.
  induction 1 as [|x l Hx _ IH]; [done|].
  rewrite filter_cons. destruct (decide (keep x)); [|done].
  by rewrite IH.
Qed.

Lemma filter_keep_idempotent (l : list A) :
  filter keep (filter keep l) = filter keep l.
Proof. apply filter_keep_fixpoint, filter_keep_absent. Qed.

Lemma filter_keep_elem (l : list A) (x : A) :
  x ∈ filter keep l <-> x ∈ l /\ key x ≠ id.
Proof. rewrite list_elem_of_filter. tauto. Qed.

(** The entries with key [id], however many, are exactly what is lost. *)
Lemma filter_keep_length (l : list A) :
  length (filter keep l) + length (filter (fun x => key x = id) l)
  = length l.
Proof.
  induction l as [|x l IH]; [done|].
  rewrite !filter_cons.
  destruct (decide (key x ≠ id)) as [Hne|Heq];
    destruct (decide (key x = id)) as [He|Hn]; simpl; try lia.
  - by destruct Hne.
  - destruct Heq; done.
Qed.

Lemma filter_keep_spec (l : list A) :
  (forall x, x ∈ filter keep l <-> x ∈ l /\ key x ≠ id)
  /\ length (filter keep l) + length (filter (fun x => key x = id) l)
     = length l
  /\ sublist (filter keep l) l.
Proof.
  split; [apply filter_keep_elem|].
  split; [apply filter_keep_length|apply sublist_filter].
Qed.

End Removal.

(** What each removal handler leaves in its collection, for any token and
    any reply: the collection itself, or the collection filtered. *)
Lemma removeFriend_friends {T} (tok : option string) (friendId : string)
    (reply : Reply T) (w : World) :
  friends (exec (removeFriend tok friendId reply) w) =
    if bool_decide (truthy tok = true /\ (status <$> envelope reply) = Some SUCCESS)
    then filter (fun f => username f ≠ friendId) (friends w)
    else friends w.
Proof.
  destruct (truthy tok) eqn:Htok.
  - apply truthy_Some in Htok as (token & -> & Hs).
    case_reply reply; try destruct st; run_handler Hs; reflexivity.
  - change (removeFriend tok friendId reply) with (perform tok (RemoveFriend friendId reply)).
    unfold exec. rewrite perform_no_token by done.
    rewrite bool_decide_eq_false_2; [done|]. intros [? _]; done.
Qed.

Lemma acceptRequest_requests {T} `{JsValue T} (tok : option string)
    (sender : string) (reply : Reply T) (w : World) :
  requests (exec (acceptRequest tok sender reply) w) =
    if bool_decide (truthy tok = true /\ (status <$> envelope reply) = Some SUCCESS)
    then filter (fun r => senderName r ≠ sender) (requests w)
    else requests w.
Proof.
  destruct (truthy tok) eqn:Htok.
  - apply truthy_Some in Htok as (token & -> & Hs).
    case_reply reply; try destruct st; run_handler Hs; reflexivity.
  - change (acceptRequest tok sender reply) with (perform tok (AcceptRequest sender reply)).
    unfold exec. rewrite perform_no_token by done.
    rewrite bool_decide_eq_false_2; [done|]. intros [? _]; done.
Qed.

Lemma declineRequest_requests {T} `{JsValue T} (tok : option string)
    (sender : string) (reply : Reply T) (w : World) :
  requests (exec (declineRequest tok sender reply) w) =
    if bool_decide (truthy tok = true /\ (status <$> envelope reply) = Some SUCCESS)
    then filter (fun r => senderName r ≠ sender) (requests w)
    else requests w.
Proof.
  destruct (truthy tok) eqn:Htok.
  - apply truthy_Some in Htok as (token & -> & Hs).
    case_reply reply; try destruct st; run_handler Hs; reflexivity.
  - change (declineRequest tok sender reply) with (perform tok (DeclineRequest sender reply)).
    unfold exec. rewrite perform_no_token by done.
    rewrite bool_decide_eq_false_2; [done|]. intros [? _]; done.
Qed.

Lemma confirmed_reply (tok : option string) {T} (d : option T) :
  truthy tok = true ->
  bool_decide (truthy tok = true /\ (status <$> envelope (replying SUCCESS d)) = Some SUCCESS)
  = true.
Proof. intros Htok. by apply bool_decide_eq_true_2. Qed.

(** C6: after an [acceptRequest(id)] or [declineRequest(id)] that resolved
    with [SUCCESS], no entry of [requests] has sender [id]; after a
    [removeFriend(id)] that resolved with [SUCCESS], no entry of [friends]
    has username [id]; and running the same operation again with the same
    [id], whatever the token and the reply of the second call, leaves the
    collection as the first run left it. *)
Theorem removal_absent_and_idempotent {T} `{JsValue T}
    (tok tok' : option string) (id : string) (d : option T)
    (reply' : Reply T) (w : World) :
  truthy tok = true ->
  let accepted := exec (acceptRequest tok id (replying SUCCESS d)) w in
  let declined := exec (declineRequest tok id (replying SUCCESS d)) w in
  let removed := exec (removeFriend tok id (replying SUCCESS d)) w in
  (Forall (fun r => senderName r ≠ id) (requests accepted)
   /\ requests (exec (acceptRequest tok' id reply') accepted)
      = requests accepted)
  /\ (Forall (fun r => senderName r ≠ id) (requests declined)
      /\ requests (exec (declineRequest tok' id reply') declined)
         = requests declined)
  /\ (Forall (fun f => username f ≠ id) (friends removed)
      /\ friends (exec (removeFriend tok' id reply') removed)
         = friends removed).
Proof.
  intros Htok accepted declined removed.
  assert (Hacc : Forall (fun r => senderName r ≠ id) (requests accepted)).
  { unfold accepted. rewrite acceptRequest_requests, confirmed_reply by done.
    apply filter_keep_absent. }
  assert (Hdec : Forall (fun r => senderName r ≠ id) (requests declined)).
  { unfold declined. rewrite declineRequest_requests, confirmed_reply by done.
    apply filter_keep_absent. }
  assert (Hrem : Forall (fun f => username f ≠ id) (friends removed)).
  { unfold removed. rewrite removeFriend_friends, confirmed_reply by done.
    apply filter_keep_absent. }
  repeat split; try assumption.
  - rewrite acceptRequest_requests. case_bool_decide; [|done].
    by apply filter_keep_fixpoint.
  - rewrite declineRequest_requests. case_bool_decide; [|done].
    by apply filter_keep_fixpoint.
  - rewrite removeFriend_friends. case_bool_decide; [|done].
    by apply filter_keep_fixpoint.
Qed.

Lemma removal_absent_and_idempotent_witness :
  requests
    (exec (acceptRequest (Some "abc123") "carol"
             (replying (T:=string) SUCCESS None))
          (exec (acceptRequest (Some "abc123") "carol"
                   (replying (T:=string) SUCCESS None)) world_inbox))
  = requests
      (exec (acceptRequest (Some "abc123") "carol"
               (replying (T:=string) SUCCESS None)) world_inbox).
Proof.
  refine (proj2 (proj1 (removal_absent_and_idempotent
            (Some "abc123") (Some "abc123") "carol" None
            (replying (T:=string) SUCCESS None) world_inbox _))).
  reflexivity.
Defined.

(** C10: the removals are filters. From any pre-state, also one that holds
    the same identifier several times, a [removeFriend(id)] that resolved
    with [SUCCESS] leaves in [friends] exactly the entries whose username
    is not [id], in their order: every entry with username [id] is gone,
    not only the first. [acceptRequest(id)] and [declineRequest(id)] do the
    same to [requests] by [senderName]. *)
Theorem removal_removes_every_match {T} `{JsValue T} (tok : option string)
    (id : string) (d : option T) (w : World) :
  truthy tok = true ->
  let removed := friends (exec (removeFriend tok id (replying SUCCESS d)) w) in
  let accepted := requests (exec (acceptRequest tok id (replying SUCCESS d)) w) in
  let declined := requests (exec (declineRequest tok id (replying SUCCESS d)) w) in
  ((forall f, f ∈ removed <-> f ∈ friends w /\ username f ≠ id)
   /\ length removed + length (filter (fun f => username f = id) (friends w))
      = length (friends w)
   /\ sublist removed (friends w))
  /\ ((forall r, r ∈ accepted <-> r ∈ requests w /\ senderName r ≠ id)
      /\ length accepted
         + length (filter (fun r => senderName r = id) (requests w))
         = length (requests w)
      /\ sublist accepted (requests w))
  /\ ((forall r, r ∈ declined <-> r ∈ requests w /\ senderName r ≠ id)
      /\ length declined
         + length (filter (fun r => senderName r = id) (requests w))
         = length (requests w)
      /\ sublist declined (requests w)).
Proof.
  intros Htok removed accepted declined.
  unfold removed, accepted, declined.
  rewrite removeFriend_friends, acceptRequest_requests,
    declineRequest_requests, !confirmed_reply by done.
  split; [|split].
  - apply (filter_keep_spec username id).
  - apply (filter_keep_spec senderName id).
  - apply (filter_keep_spec senderName id).
Qed.

Lemma removal_removes_every_match_witness :
  friends (exec (removeFriend (Some "abc123") "dave"
                   (replying (T:=string) SUCCESS None))
                (with_friends [dave; alice; dave] world0))
  = [alice]
  /\ sublist
       (friends (exec (removeFriend (Some "abc123") "dave"
                         (replying (T:=string) SUCCESS None))
                      (with_friends [dave; alice; dave] world0)))
       [dave; alice; dave].
Proof.
  split; [reflexivity|].
  refine (proj2 (proj2 (proj1 (removal_removes_every_match
            (Some "abc123") "dave" None
            (with_friends [dave; alice; dave] world0) _)))).
  reflexivity.
Defined.

(** ** Failure envelopes *)

(** A [FAILURE] envelope never changes a collection and never escapes as an
    exception, whichever operation receives it. *)
Lemma failure_leaves_collections (tok : option string) (i : Invocation)
    (w : World) :
  resolved_status i = Some FAILURE ->
  completion (perform tok i) w = Normal tt
  /\ friends (exec (perform tok i) w) = friends w
  /\ requests (exec (perform tok i) w) = requests w.
Proof.
  intros Hfail. destruct (truthy tok) eqn:Htok.
  - apply truthy_Some in Htok as (token & -> & Hs).
    destruct i as [reply|reply|target reply|T JV sender reply
                  |T JV sender reply|T friendId reply];
      case_reply reply; try destruct st; try discriminate Hfail;
      run_handler Hs; done.
  - unfold completion, exec. by rewrite perform_no_token.
Qed.

(** The four handlers of the requests panel report a [FAILURE] envelope:
    exactly one error message is shown. *)
Lemma requests_panel_failure_shows_error {T} `{JsValue T}
    (tok : option string) (id : string) (dl : option (list FriendRequest))
    (ds : option string) (d : option T) (w : World) :
  truthy tok = true ->
  (exists text,
     errors_shown (trace (exec (loadRequests tok (replying FAILURE dl)) w))
     = (errors_shown (trace w) ++ [text])%list)
  /\ (exists text,
        errors_shown
          (trace (exec (sendFriendRequest tok id (replying FAILURE ds)) w))
        = (errors_shown (trace w) ++ [text])%list)
  /\ (exists text,
        errors_shown (trace (exec (acceptRequest tok id (replying FAILURE d)) w))
        = (errors_shown (trace w) ++ [text])%list)
  /\ (exists text,
        errors_shown (trace (exec (declineRequest tok id (replying FAILURE d)) w))
        = (errors_shown (trace w) ++ [text])%list).
Proof.
  intros Htok. apply truthy_Some in Htok as (token & -> & Hs).
  repeat split; run_handler Hs; rewrite errors_shown_app; simpl; eauto.
Qed.

(** C4 at its failing inputs: when [loadFriends] or [removeFriend] receives
    a [FAILURE] envelope, [friends] is left unchanged and the handler
    completes normally, but no error message is shown: the two handlers of
    the friends panel have no [else] branch, unlike the four handlers of
    the requests panel. *)
Theorem friends_panel_failure_is_silent {T} (tok : option string)
    (id : string) (dl : option (list Friend)) (d : option T) (w : World) :
  truthy tok = true ->
  let loaded := exec (loadFriends tok (replying FAILURE dl)) w in
  let removed := exec (removeFriend tok id (replying FAILURE d)) w in
  (friends loaded = friends w
   /\ errors_shown (trace loaded) = errors_shown (trace w))
  /\ (friends removed = friends w
      /\ errors_shown (trace removed) = errors_shown (trace w)).
Proof.
  intros Htok. apply truthy_Some in Htok as (token & -> & Hs).
  repeat split; run_handler Hs; try done;
    rewrite errors_shown_app; simpl; apply app_nil_r.
Qed.

Lemma friends_panel_failure_is_silent_witness :
  errors_shown
    (trace (exec (removeFriend (Some "abc123") "dave"
                    (replying FAILURE (Some "not a friend")))
                 (with_friends [dave] world0)))
  = [].
Proof.
  refine (proj2 (proj2 (friends_panel_failure_is_silent
            (Some "abc123") "dave" None (Some "not a friend")
            (with_friends [dave] world0) _))).
  reflexivity.
Defined.

(** ** Sending a request *)

(** C9: a [sendFriendRequest] that resolved with [SUCCESS] writes to neither
    [friends] nor [requests] and resets the form; one that resolved with
    [FAILURE] shows one error message: the text of the envelope's [data],
    or the generic text when [data] is absent or the empty string. *)
Theorem sendRequest_effects (tok : option string) (target : string)
    (d : option string) (w : World) :
  truthy tok = true ->
  let sent := exec (sendFriendRequest tok target (replying SUCCESS d)) w in
  let refused := exec (sendFriendRequest tok target (replying FAILURE d)) w in
  (friends sent = friends w
   /\ requests sent = requests w
   /\ formFields sent = ∅
   /\ exists tr, trace sent = (trace w ++ tr)%list
                /\ EvResetFields ∈ tr
                /\ forallb (fun e => negb (mutation e)) tr = true)
  /\ errors_shown (trace refused)
     = (errors_shown (trace w)
        ++ [match d with
            | Some text =>
                if decide (text = "") then "Помилка надсилання запиту"
                else text
            | None => "Помилка надсилання запиту"
            end])%list.
Proof.
  intros Htok. apply truthy_Some in Htok as (token & -> & Hs).
  split.
  - run_handler Hs. repeat split.
    eexists. split; [reflexivity|]. split; [|reflexivity].
    repeat constructor.
  - run_handler Hs. rewrite errors_shown_app. simpl. f_equal.
    destruct d as [[|c text]|]; reflexivity.
Qed.

Lemma sendRequest_effects_witness :
  requests (exec (sendFriendRequest (Some "abc123") "bob"
                    (replying SUCCESS None)) world_form)
  = requests world_form
  /\ formFields (exec (sendFriendRequest (Some "abc123") "bob"
                         (replying SUCCESS None)) world_form)
     = ∅.
Proof.
  destruct (sendRequest_effects (Some "abc123") "bob" None world_form eq_refl)
    as [(_ & Hreq & Hform & _) _].
  exact (conj Hreq Hform).
Defined.

(** ** Transport failures *)

(** A reply without envelope is a transport failure, and conversely. *)
Lemma transport_failure_no_envelope {T} (reply : Reply T) :
  transport_failure reply = true <-> envelope reply = None.
Proof. destruct reply as [|[[e|]]]; simpl; split; congruence. Qed.




(** ** The end-to-end scenarios of the specification *)

(** Scenario A: a [SUCCESS] envelope with token [abc123] logs in. *)
Example scenario_login :
  Session.auth
    (tab (exec (login_handleSubmit "{}"
                  (replying SUCCESS (Some (mkLoginData "abc123")))) world0))
  = Session.mkAuth (Some "abc123") true.
Proof. reflexivity. Qed.

(** Scenario C: accepting carol's request empties the inbox. *)
Example scenario_accept :
  requests (exec (acceptRequest (Some "abc123") "carol"
                    (replying (T:=string) SUCCESS None))
                 (with_requests [carol_request] world0))
  = [].
Proof. reflexivity. Qed.

(** Scenario D: a refused removal leaves dave in the list. *)
Example scenario_remove_refused :
  friends (exec (removeFriend (Some "abc123") "dave"
                   (replying (T:=string) FAILURE None))
                (with_friends [dave] world0))
  = [dave].
Proof. reflexivity. Qed.

(** The effects of a confirmed removal, in order. *)
Example trace_of_removeFriend :
  trace (exec (removeFriend (Some "abc123") "dave"
                 (replying (T:=string) SUCCESS None))
              (with_friends [dave; alice] world0))
  = [EvFetch (mkRequest "http://localhost:80/api/v1/friendship/delete/dave"
                (mkInit (Some "DELETE")
                        (Some {["Authorization" := "Bearer abc123"]})
                        None));
     EvSettled (Some SUCCESS);
     EvSetFriends [alice];
     EvMessage success "Друга видалено"].
Proof. vm_compute. reflexivity. Qed.

(** * Further properties of the handlers *)

Lemma effects_app {A} (m : Async A) (w : World) (d : list Event) :
  trace (exec m w) = (trace w ++ d)%list -> effects m w = d.
Proof. intros Htr. unfold effects. rewrite Htr. apply drop_app_length. Qed.

Lemma effects_none {A} (m : Async A) (w : World) :
  trace (exec m w) = trace w -> effects m w = [].
Proof. intros Htr. apply effects_app. by rewrite app_nil_r. Qed.

(** Run a handler and read off the effects it appended. *)
Ltac run_effects Hs :=
  unfold effects; run_handler Hs; rewrite ?drop_app_length; simpl.

(** X1: no handler ever rejects. Whatever the token, the reply of the
    network (unreachable, malformed, any envelope, also a [SUCCESS] login
    envelope without [data]), the storage policy (also when [setItem]
    throws inside [login]) and the state, each of the six controller
    operations and the two submit handlers completes normally. *)
Theorem handlers_never_throw {T} `{JsValue T} (tok : option string)
    (i : Invocation) (body : string) (replyL : Reply LoginData)
    (reply : Reply T) (w : World) :
  completion (perform tok i) w = Normal tt
  /\ completion (login_handleSubmit body replyL) w = Normal tt
  /\ completion (register_handleSubmit body reply) w = Normal tt.
Proof.
  split; [|split].
  - destruct (truthy tok) eqn:Htok.
    + apply truthy_Some in Htok as (token & -> & Hs).
      destruct i as [r|r|target r|T' JV sender r|T' JV sender r|T' friendId r];
        case_reply r; try destruct st; run_handler Hs; reflexivity.
    + unfold completion. by rewrite perform_no_token.
  - case_reply replyL; try destruct st; try destruct d;
      unfold_handler; simpl; try case_storage; reflexivity.
  - case_reply reply; try destruct st; unfold_handler; reflexivity.
Qed.

Lemma apiCall_fetched {T} (endpoint : string) (options : RequestInit)
    (reply : Reply T) (w : World) :
  fetched (effects (apiCall endpoint options reply) w)
  = [mkRequest (API_BASE ++ endpoint)
       (mkInit (init_method options)
               (Some (default {["Content-Type" := "application/json"]}
                        (init_headers options)))
               (init_body options))].
Proof.
  destruct options as [m [h|] b]; case_reply reply;
    unfold effects; unfold_handler; simpl; rewrite drop_app_length; simpl;
    rewrite ?(left_id_L ∅ (∪)); reflexivity.
Qed.

(** X2: the request [apiCall] hands to [fetch]. Exactly one request goes
    out, to [API_BASE] followed by the endpoint, with the caller's method
    and body. Because [...options] is spread after the merged [headers],
    the headers are the caller's own whenever [options] has a [headers]
    key, without the [Content-Type] of [apiCall]; only a call without
    [headers] is sent with [Content-Type: application/json]. *)
Theorem apiCall_request {T} (endpoint : string) (options : RequestInit)
    (reply : Reply T) (w : World) :
  fetched (effects (apiCall endpoint options reply) w)
  = [mkRequest (API_BASE ++ endpoint)
       (mkInit (init_method options)
               (Some match init_headers options with
                     | Some h => h
                     | None => {["Content-Type" := "application/json"]}
                     end)
               (init_body options))].
Proof. rewrite apiCall_fetched. by destruct (init_headers options). Qed.

(** X3: the request of an authenticated call. It carries an [Authorization]
    header, [Bearer] followed by the token unless the caller's own headers
    name [Authorization], which then wins; every other header is the
    caller's, so no [Content-Type] is sent unless the caller supplies it. *)
Theorem authenticatedApiCall_request {T} (endpoint token : string)
    (options : RequestInit) (reply : Reply T) (w : World) :
  exists h,
    fetched (effects (authenticatedApiCall endpoint token options reply) w)
    = [mkRequest (API_BASE ++ endpoint)
         (mkInit (init_method options) (Some h) (init_body options))]
    /\ h !! "Authorization"
       = Some (default ("Bearer " ++ token)
                 (spread (init_headers options) !! "Authorization"))
    /\ (forall k, k <> "Authorization" ->
        h !! k = spread (init_headers options) !! k).
Proof.
  exists (spread (init_headers options)
            ∪ {["Authorization" := "Bearer " ++ token]}).
  split; [|split].
  - unfold authenticatedApiCall. by rewrite apiCall_fetched.
  - rewrite lookup_union.
    destruct (spread (init_headers options) !! "Authorization") as [v|];
      by rewrite lookup_singleton_eq.
  - intros k Hk. rewrite lookup_union, lookup_singleton_ne by done.
    by destruct (spread (init_headers options) !! k).
Qed.

Lemma authenticatedApiCall_request_witness :
  exists h,
    fetched (effects (authenticatedApiCall "/api/v1/friendship/friends"
                        "abc123" no_options (Unreachable (T:=string)))
                     world0)
    = [mkRequest "http://localhost:80/api/v1/friendship/friends"
         (mkInit None (Some h) None)]
    /\ h !! "Content-Type" = None.
Proof.
  destruct (authenticatedApiCall_request "/api/v1/friendship/friends"
              "abc123" no_options (Unreachable (T:=string)) world0)
    as (h & Hreq & _ & Hother).
  exists h. split; [exact Hreq|].
  rewrite Hother by discriminate. reflexivity.
Defined.

(** X4: what goes on the wire for each controller operation. With a token
    that passes the guard, an operation issues exactly one request, whatever
    the reply (nothing is retried): to the endpoint and with the method
    below, without body, and with [Authorization: Bearer <token>] as its
    only header. *)
Theorem operation_request (token : string) (i : Invocation) (w : World) :
  truthy_string token = true ->
  fetched (effects (perform (Some token) i) w)
  = [mkRequest
       (API_BASE ++
        match i with
        | LoadFriends _ => "/api/v1/friendship/friends"
        | LoadRequests _ => "/api/v1/friendship/requests"
        | SendRequest target _ => "/api/v1/friendship/request/" ++ target
        | AcceptRequest sender _ => "/api/v1/friendship/accept/" ++ sender
        | DeclineRequest sender _ => "/api/v1/friendship/decline/" ++ sender
        | RemoveFriend friendId _ => "/api/v1/friendship/delete/" ++ friendId
        end)
       (mkInit
          match i with
          | LoadFriends _ | LoadRequests _ => None
          | SendRequest _ _ => Some "POST"
          | AcceptRequest _ _ | DeclineRequest _ _ => Some "PUT"
          | RemoveFriend _ _ => Some "DELETE"
          end
          (Some {["Authorization" := "Bearer " ++ token]})
          None)].
Proof.
  intros Hs.
  destruct i as [r|r|target r|T JV sender r|T JV sender r|T friendId r];
    case_reply r; try destruct st; run_effects Hs;
    rewrite ?(left_id_L ∅ (∪)); reflexivity.
Qed.

Lemma operation_request_witness :
  fetched (effects (perform (Some "abc123")
                      (AcceptRequest "carol" (Unreachable (T:=string))))
                   world_inbox)
  = [mkRequest "http://localhost:80/api/v1/friendship/accept/carol"
       (mkInit (Some "PUT") (Some {["Authorization" := "Bearer abc123"]})
               None)].
Proof.
  exact (operation_request "abc123"
           (AcceptRequest "carol" (Unreachable (T:=string))) world_inbox
           eq_refl).
Defined.

(** X5: no controller operation touches the session. Whatever the reply,
    also a [FAILURE] envelope or a transport failure, the provider's state
    and the stored token are as before, so a failing call never logs the
    user out; and an operation of one panel leaves the state of the other
    panel alone. *)
Theorem operation_frame (tok : option string) (i : Invocation) (w : World) :
  let w' := exec (perform tok i) w in
  tab w' = tab w
  /\ loginLoading w' = loginLoading w
  /\ registerLoading w' = registerLoading w
  /\ match i with
     | LoadFriends _ | RemoveFriend _ _ =>
         requests w' = requests w
         /\ requestsLoading w' = requestsLoading w
         /\ sendingRequest w' = sendingRequest w
         /\ formFields w' = formFields w
     | _ =>
         friends w' = friends w /\ friendsLoading w' = friendsLoading w
     end.
Proof.
  destruct (truthy tok) eqn:Htok.
  - apply truthy_Some in Htok as (token & -> & Hs).
    destruct i as [r|r|target r|T JV sender r|T JV sender r|T friendId r];
      case_reply r; try destruct st; run_handler Hs; done.
  - simpl. unfold exec. rewrite perform_no_token by done.
    destruct i; done.
Qed.

(** X6: the busy flags. A handler that made its request always clears its
    flag in the end, whatever the reply: [loading] of either panel after a
    load, [sendingRequest] after a send, [loading] of the login and the
    registration page after a submit. A load that stopped at the token
    guard leaves [loading] as it was (initially [true]). *)
Theorem busy_flags (tok : option string) (target body : string)
    (rf : Reply (list Friend)) (rr : Reply (list FriendRequest))
    (rs : Reply string) (rl : Reply LoginData) (w : World) :
  friendsLoading (exec (loadFriends tok rf) w)
    = (if truthy tok then false else friendsLoading w)
  /\ requestsLoading (exec (loadRequests tok rr) w)
    = (if truthy tok then false else requestsLoading w)
  /\ sendingRequest (exec (sendFriendRequest tok target rs) w)
    = (if truthy tok then false else sendingRequest w)
  /\ loginLoading (exec (login_handleSubmit body rl) w) = false
  /\ registerLoading (exec (register_handleSubmit body rs) w) = false.
Proof.
  assert (Hpage :
    loginLoading (exec (login_handleSubmit body rl) w) = false
    /\ registerLoading (exec (register_handleSubmit body rs) w) = false).
  { split.
    - case_reply rl; try destruct st; try destruct d;
        unfold_handler; simpl; try case_storage; reflexivity.
    - case_reply rs; try destruct st; unfold_handler; reflexivity. }
  destruct (truthy tok) eqn:Htok.
  - apply truthy_Some in Htok as (token & -> & Hs).
    repeat split; try apply Hpage.
    + case_reply rf; try destruct st; run_handler Hs; reflexivity.
    + case_reply rr; try destruct st; run_handler Hs; reflexivity.
    + case_reply rs; try destruct st; run_handler Hs; reflexivity.
  - repeat split; try apply Hpage.
    + change (loadFriends tok rf) with (perform tok (LoadFriends rf)).
      unfold exec. by rewrite perform_no_token.
    + change (loadRequests tok rr) with (perform tok (LoadRequests rr)).
      unfold exec. by rewrite perform_no_token.
    + change (sendFriendRequest tok target rs)
        with (perform tok (SendRequest target rs)).
      unfold exec. by rewrite perform_no_token.
Qed.

(** X7: the three outcomes of the login handler. When the reply is a
    [SUCCESS] envelope with a [data] and the storage takes the delivered
    token, the session is logged in with it, the token is stored, the
    success message is shown and [onSuccess] runs once. When the storage
    refuses the token, [login] throws after it has set the state: the
    session is active with the token, nothing is stored, and instead of
    the success message and [onSuccess] the connection error is shown.
    In every other case (a [FAILURE] envelope, a [SUCCESS] envelope
    without [data], a transport failure) the session and the storage are
    untouched, [onSuccess] does not run and exactly one error message is
    shown. *)
Theorem login_outcomes (body : string) (reply : Reply LoginData) (w : World) :
  let w' := exec (login_handleSubmit body reply) w in
  let eff := effects (login_handleSubmit body reply) w in
  match delivered_token reply with
  | Some t =>
      Session.auth (tab w') = Session.mkAuth (Some t) true
      /\ if Session.accepts (tab w) Session.authToken t
              (Session.sessionStorage (tab w))
         then Session.sessionStorage (tab w')
              = <[Session.authToken := t]> (Session.sessionStorage (tab w))
              /\ onSuccess_calls eff = 1
              /\ successes_shown eff = ["Успішний вхід!"]
              /\ errors_shown eff = []
         else Session.sessionStorage (tab w') = Session.sessionStorage (tab w)
              /\ onSuccess_calls eff = 0
              /\ successes_shown eff = []
              /\ errors_shown eff = ["Помилка підключення"]
  | None =>
      tab w' = tab w
      /\ onSuccess_calls eff = 0
      /\ successes_shown eff = []
      /\ exists text, errors_shown eff = [text]
  end.
Proof.
  case_reply reply; try destruct st; try destruct d as [[t]|];
    unfold effects; unfold_handler; simpl; try case_storage; simpl;
    rewrite <- ?app_assoc; rewrite drop_app_length; simpl; eauto 10.
Qed.

(** X8: the registration handler never logs in. Whatever the reply, the
    session, the storage and both collections are untouched; [onSuccess]
    runs (once) exactly when the reply is a [SUCCESS] envelope, and then no
    error is shown; a [FAILURE] envelope shows its [data] text, or the
    generic text when [data] is absent or empty; a transport failure shows
    the connection error. *)
Theorem register_outcomes (body : string) (reply : Reply string) (w : World) :
  let w' := exec (register_handleSubmit body reply) w in
  let eff := effects (register_handleSubmit body reply) w in
  tab w' = tab w /\ friends w' = friends w /\ requests w' = requests w
  /\ match envelope reply with
     | Some (mkResponse SUCCESS _) =>
         onSuccess_calls eff = 1
         /\ successes_shown eff = ["Реєстрація успішна!"]
         /\ errors_shown eff = []
     | Some (mkResponse FAILURE d) =>
         onSuccess_calls eff = 0
         /\ successes_shown eff = []
         /\ errors_shown eff
            = [match d with
               | Some text =>
                   if decide (text = "") then "Помилка реєстрації" else text
               | None => "Помилка реєстрації"
               end]
     | None =>
         onSuccess_calls eff = 0
         /\ successes_shown eff = []
         /\ errors_shown eff = ["Помилка з'єднання з сервером"]
     end.
Proof.
  case_reply reply; try destruct st; try destruct d as [[|c text]|];
    unfold effects; unfold_handler; simpl; rewrite <- ?app_assoc;
    rewrite drop_app_length; simpl; auto 10.
Qed.

(** ** The application shell *)

(** After a login that delivered a token the provider holds it, stored or
    not; the view moves to ['dashboard'] when the storage took the token
    and stays where it was when [login] threw. *)
Lemma LoginPage_submit_delivered (body : string) (reply : Reply LoginData)
    (t : string) (a : AppState) :
  delivered_token reply = Some t ->
  Session.auth (tab (app_world (LoginPage_submit body reply a)))
    = Session.mkAuth (Some t) true
  /\ currentView (LoginPage_submit body reply a)
     = if Session.accepts (tab (app_world a)) Session.authToken t
            (Session.sessionStorage (tab (app_world a)))
       then view_dashboard else currentView a.
Proof.
  intros Ht. unfold LoginPage_submit, with_onSuccess.
  case_reply reply; try destruct st; try destruct d as [[t']|];
    try discriminate Ht.
  injection Ht as ->.
  unfold effects; unfold_handler; simpl; case_storage; simpl;
    rewrite <- ?app_assoc; by rewrite drop_app_length.
Qed.

Lemma LoginPage_submit_refused (body : string) (reply : Reply LoginData)
    (a : AppState) :
  delivered_token reply = None ->
  currentView (LoginPage_submit body reply a) = currentView a
  /\ tab (app_world (LoginPage_submit body reply a)) = tab (app_world a).
Proof.
  intros Ht. unfold LoginPage_submit, with_onSuccess.
  case_reply reply; try destruct st; try destruct d as [[t']|];
    try discriminate Ht;
    unfold effects; unfold_handler; simpl; rewrite <- ?app_assoc;
    by rewrite drop_app_length.
Qed.

(** X9: logging in and out through the pages leaves a blank screen. A
    login that delivers a token shows the dashboard. When the storage took
    the token, [onSuccess] has set [currentView] to ['dashboard'], and
    [AppContent] has no branch for that view once the session is
    inactive: after the dashboard's logout neither the login page nor the
    registration page is rendered. When the storage refused the token,
    [login] threw before [onSuccess], the view is still the one the login
    was submitted from, and the logout shows that page. A session restored
    from storage keeps [currentView] at ['login'], and its logout shows
    the login page. *)
Theorem logout_after_login (body saved : string)
    (reply : Reply LoginData) (t : string) (st : gmap string string)
    (policy : Session.Policy) (a : AppState) :
  delivered_token reply = Some t ->
  st !! Session.authToken = Some saved ->
  saved <> "" ->
  AppContent (LoginPage_submit body reply a) = DashboardScreen
  /\ AppContent (Dashboard_logout (LoginPage_submit body reply a))
     = (if Session.accepts (tab (app_world a)) Session.authToken t
             (Session.sessionStorage (tab (app_world a)))
        then EmptyScreen
        else match currentView a with
             | view_login => LoginScreen
             | view_register => RegisterScreen
             | view_dashboard => EmptyScreen
             end)
  /\ AppContent (App_mount st policy) = DashboardScreen
  /\ AppContent (Dashboard_logout (App_mount st policy)) = LoginScreen.
Proof.
  intros Ht Hsaved Hne.
  destruct (LoginPage_submit_delivered body reply t a Ht) as [Hauth Hview].
  assert (Hmount : Session.auth (Session.mount st policy)
                   = Session.mkAuth (Some saved) true).
  { unfold Session.mount. by apply restore_saved. }
  split; [|split; [|split]].
  - unfold AppContent. by rewrite Hauth.
  - unfold AppContent, Dashboard_logout.
    cbn [app_world currentView with_tab tab Session.logout Session.auth
         Session.isLoggedIn].
    rewrite Hview. by case_storage.
  - unfold AppContent, App_mount. cbn [app_world with_tab tab].
    by rewrite Hmount.
  - reflexivity.
Qed.

Lemma logout_after_login_witness :
  AppContent
    (Dashboard_logout
       (LoginPage_submit "{}" (replying SUCCESS (Some (mkLoginData "abc123")))
          (App_mount ∅ Session.unlimited)))
  = EmptyScreen.
Proof.
  refine (proj1 (proj2 (logout_after_login "{}" "abc123"
            (replying SUCCESS (Some (mkLoginData "abc123"))) "abc123"
            {[Session.authToken := "abc123"]} Session.unlimited
            (App_mount ∅ Session.unlimited) _ _ _)));
    [reflexivity|reflexivity|discriminate].
Defined.

(** X10: a login that does not deliver a token changes neither the session
    nor the view, so the screen stays what it was; a registration that
    succeeds while logged out leads to the login page, and one that does
    not succeed leaves the view where it was. *)
Theorem page_navigation (body : string) (rl : Reply LoginData)
    (rs : Reply string) (a : AppState) :
  delivered_token rl = None ->
  Session.isLoggedIn (Session.auth (tab (app_world a))) = false ->
  AppContent (LoginPage_submit body rl a) = AppContent a
  /\ AppContent (RegisterPage_submit body rs a)
     = match envelope rs with
       | Some (mkResponse SUCCESS _) => LoginScreen
       | _ => AppContent a
       end.
Proof.
  intros Hrl Hout. split.
  - destruct (LoginPage_submit_refused body rl a Hrl) as [Hview Htab].
    unfold AppContent. by rewrite Hview, Htab.
  - unfold RegisterPage_submit, with_onSuccess, AppContent.
    case_reply rs; try destruct st;
      unfold effects; unfold_handler; simpl; rewrite <- ?app_assoc;
      rewrite drop_app_length; simpl; by rewrite Hout.
Qed.

Lemma page_navigation_witness :
  AppContent (RegisterPage_submit "{}" (replying SUCCESS None)
                (show_register (App_mount ∅ Session.unlimited)))
  = LoginScreen.
Proof.
  refine (proj2 (page_navigation "{}" Unreachable (replying SUCCESS None)
                   (show_register (App_mount ∅ Session.unlimited)) _ _)); reflexivity.
Defined.

(** X11: the token a login delivers is the token the dashboard sends.
    After a login that delivered a non-empty token [t], stored or not, the
    dashboard is shown
    and any controller operation run with the context's token issues one
    request whose [Authorization] header is [Bearer t]. *)
Theorem login_token_is_sent (body t : string) (reply : Reply LoginData)
    (i : Invocation) (a : AppState) :
  delivered_token reply = Some t ->
  t <> "" ->
  let a' := LoginPage_submit body reply a in
  AppContent a' = DashboardScreen
  /\ exists req,
       fetched (effects
                  (perform (Session.token (Session.auth (tab (app_world a')))) i)
                  (app_world a'))
       = [req]
       /\ init_headers (req_init req)
          = Some {["Authorization" := "Bearer " ++ t]}.
Proof.
  intros Ht Hne a'. unfold a'.
  destruct (LoginPage_submit_delivered body reply t a Ht) as [Hauth _].
  split; [unfold AppContent; by rewrite Hauth|].
  rewrite Hauth. cbn [Session.token].
  generalize (app_world (LoginPage_submit body reply a)). intros w.
  apply truthy_string_true in Hne.
  destruct i as [r|r|target r|T JV sender r|T JV sender r|T friendId r];
    case_reply r; try destruct st; run_effects Hne;
    rewrite ?(left_id_L ∅ (∪)); eauto.
Qed.

Lemma login_token_is_sent_witness :
  AppContent
    (LoginPage_submit "{}" (replying SUCCESS (Some (mkLoginData "abc123")))
       (App_mount ∅ Session.unlimited))
  = DashboardScreen.
Proof.
  refine (proj1 (login_token_is_sent "{}" "abc123"
            (replying SUCCESS (Some (mkLoginData "abc123")))
            (LoadFriends Unreachable) (App_mount ∅ Session.unlimited) _ _));
    [reflexivity|discriminate].
Defined.

(** X12: a login that delivers the empty token shows the dashboard,
    whether or not the storage took the token, but the dashboard is inert: the context's token fails every guard, so each
    controller operation issues no request and changes nothing, and the
    panels' [loading] flags are never cleared. *)
Theorem empty_token_login_is_inert (body : string) (reply : Reply LoginData)
    (i : Invocation) (a : AppState) :
  delivered_token reply = Some "" ->
  let a' := LoginPage_submit body reply a in
  AppContent a' = DashboardScreen
  /\ Dashboard_perform i a' = a'.
Proof.
  intros Ht a'. unfold a'.
  destruct (LoginPage_submit_delivered body reply "" a Ht) as [Hauth _].
  split; [unfold AppContent; by rewrite Hauth|].
  unfold Dashboard_perform. rewrite Hauth. cbn [Session.token].
  unfold exec. rewrite perform_no_token by done.
  by destruct (LoginPage_submit body reply a).
Qed.

Lemma empty_token_login_is_inert_witness :
  Dashboard_perform (LoadFriends (replying SUCCESS (Some [alice])))
    (LoginPage_submit "{}" (replying SUCCESS (Some (mkLoginData "")))
       (App_mount ∅ Session.unlimited))
  = LoginPage_submit "{}" (replying SUCCESS (Some (mkLoginData "")))
      (App_mount ∅ Session.unlimited).
Proof.
  refine (proj2 (empty_token_login_is_inert "{}"
            (replying SUCCESS (Some (mkLoginData "")))
            (LoadFriends (replying SUCCESS (Some [alice])))
            (App_mount ∅ Session.unlimited) _)).
  reflexivity.
Defined.

(** ** More on the Session Store *)

(** X13: the session operations touch one storage key only. Every entry of
    [sessionStorage] under a key other than ['authToken'] survives [login]
    (whether or not the storage took the token) and [logout], and the mount
    effect writes nothing at all. *)
Theorem session_storage_frame (k s : string) (t : Session.Tab) :
  k <> Session.authToken ->
  Session.getItem k (Session.sessionStorage (snd (Session.login s t)))
    = Session.getItem k (Session.sessionStorage t)
  /\ Session.getItem k (Session.sessionStorage (Session.logout t))
    = Session.getItem k (Session.sessionStorage t)
  /\ Session.sessionStorage (Session.restore t) = Session.sessionStorage t.
Proof.
  intros Hk. split; [|split].
  - unfold Session.getItem, Session.login, Session.setItem.
    case_storage; simpl; [|done]. by apply lookup_insert_ne.
  - unfold Session.getItem, Session.logout, Session.removeItem. simpl.
    by apply lookup_delete_ne.
  - unfold Session.restore, Session.getItem.
    destruct (Session.sessionStorage t !! Session.authToken) as [v|]; [|done].
    by destruct (truthy_string v).
Qed.

Lemma session_storage_frame_witness :
  Session.getItem "theme"
    (Session.sessionStorage
       (Session.logout
          (Session.mkTab Session.initial {["theme" := "dark"]}
             Session.unlimited)))
  = Some "dark".
Proof.
  refine (eq_trans (proj1 (proj2 (session_storage_frame "theme" "abc123"
            (Session.mkTab Session.initial {["theme" := "dark"]}
               Session.unlimited) _))) _);
    [discriminate|reflexivity].
Defined.

(** X14: how the session operations compose. In the component state the
    last login always wins. In the storage it wins when the storage takes
    its token; when the storage refuses it, the storage keeps what the
    first login left, so a reload then brings back the first token while
    the running instance holds the second. A logout erases a login, stored
    or not; logging out twice is logging out once; the mount effect run
    twice is the mount effect run once. *)
Theorem session_composition (s1 s2 : string) (t : Session.Tab) :
  let t1 := snd (Session.login s1 t) in
  let t2 := snd (Session.login s2 t1) in
  Session.auth t2 = Session.mkAuth (Some s2) true
  /\ Session.getItem Session.authToken (Session.sessionStorage t2)
     = (if Session.accepts t Session.authToken s2 (Session.sessionStorage t1)
        then Some s2
        else Session.getItem Session.authToken (Session.sessionStorage t1))
  /\ Session.logout t1 = Session.logout t
  /\ Session.logout (Session.logout t) = Session.logout t
  /\ Session.restore (Session.restore t) = Session.restore t.
Proof.
  cbv zeta. split; [apply login_auth|]. split; [|split; [|split]].
  - unfold Session.getItem.
    unfold Session.login at 1. unfold Session.setItem at 1.
    rewrite login_policy. case_storage; simpl; [|done].
    apply lookup_insert_eq.
  - unfold Session.login, Session.setItem, Session.logout,
      Session.removeItem.
    case_storage; simpl; [|done]. by rewrite delete_insert_eq.
  - unfold Session.logout, Session.removeItem. simpl.
    by rewrite delete_delete_eq.
  - unfold Session.restore, Session.getItem.
    destruct (Session.sessionStorage t !! Session.authToken) as [v|] eqn:Hv;
      [|by rewrite Hv].
    destruct (truthy_string v) eqn:Htv; simpl; by rewrite Hv, Htv.
Qed.

(** The storage refusing the second of two logins: the running instance
    holds the second token, a reload brings back the first. *)
Example second_login_refused :
  let t2 :=
    snd (Session.login long_token (snd (Session.login "abc123" tab_small))) in
  Session.auth t2 = Session.mkAuth (Some long_token) true
  /\ Session.auth (Session.reload t2) = Session.mkAuth (Some "abc123") true.
Proof. split; reflexivity. Qed.

(** ** How the controller operations compose *)

(** X15: the last write wins. A removal confirmed after a load leaves the
    loaded payload without the removed identifier; a load that resolves
    after the removal puts the whole payload back, the removed entry
    included if the payload still has it. The same holds for accepting a
    request and loading the requests. *)
Theorem load_and_removal_order (tok : option string) (id : string)
    (P : list Friend) (Q : list FriendRequest) (d : option string)
    (w : World) :
  truthy tok = true ->
  friends (exec (removeFriend tok id (replying SUCCESS d))
             (exec (loadFriends tok (replying SUCCESS (Some P))) w))
    = filter (fun f => username f <> id) P
  /\ friends (exec (loadFriends tok (replying SUCCESS (Some P)))
                (exec (removeFriend tok id (replying SUCCESS d)) w))
    = P
  /\ requests (exec (acceptRequest tok id (replying SUCCESS d))
                 (exec (loadRequests tok (replying SUCCESS (Some Q))) w))
    = filter (fun r => senderName r <> id) Q
  /\ requests (exec (loadRequests tok (replying SUCCESS (Some Q)))
                 (exec (acceptRequest tok id (replying SUCCESS d)) w))
    = Q.
Proof.
  intros Htok.
  rewrite removeFriend_friends, acceptRequest_requests,
    !confirmed_reply by done.
  apply truthy_Some in Htok as (token & -> & Hs).
  repeat split; run_handler Hs; reflexivity.
Qed.

Lemma load_and_removal_order_witness :
  friends (exec (loadFriends (Some "abc123")
                   (replying SUCCESS (Some [dave; alice])))
             (exec (removeFriend (Some "abc123") "dave"
                      (replying SUCCESS (@None string)))
                   (with_friends [dave; alice] world0)))
  = [dave; alice].
Proof.
  refine (proj1 (proj2 (load_and_removal_order (Some "abc123") "dave"
            [dave; alice] [] None (with_friends [dave; alice] world0) _))).
  reflexivity.
Defined.

Lemma filter_swap {A} (P Q : A -> Prop) `{!forall x, Decision (P x)}
    `{!forall x, Decision (Q x)} (l : list A) :
  filter P (filter Q l) = filter Q (filter P l).
Proof.
  induction l as [|x l IH]; [done|].
  rewrite !filter_cons.
  destruct (decide (Q x)), (decide (P x)); rewrite ?filter_cons;
    repeat case_decide; try done; by rewrite IH.
Qed.

(** X16: confirmed removals of two identifiers commute: removing two
    friends, or accepting one request and declining another, leaves the
    same collection in either order. *)
Theorem removals_commute (tok : option string) (a b : string)
    (d : option string) (w : World) :
  truthy tok = true ->
  friends (exec (removeFriend tok b (replying SUCCESS d))
             (exec (removeFriend tok a (replying SUCCESS d)) w))
    = friends (exec (removeFriend tok a (replying SUCCESS d))
                 (exec (removeFriend tok b (replying SUCCESS d)) w))
  /\ requests (exec (declineRequest tok b (replying SUCCESS d))
                 (exec (acceptRequest tok a (replying SUCCESS d)) w))
    = requests (exec (acceptRequest tok a (replying SUCCESS d))
                  (exec (declineRequest tok b (replying SUCCESS d)) w)).
Proof.
  intros Htok.
  repeat first
    [ rewrite removeFriend_friends | rewrite acceptRequest_requests
    | rewrite declineRequest_requests | rewrite confirmed_reply by done ].
  split; apply filter_swap.
Qed.

Lemma removals_commute_witness :
  requests (exec (declineRequest (Some "abc123") "bob"
                    (replying SUCCESS (@None string)))
              (exec (acceptRequest (Some "abc123") "carol"
                       (replying SUCCESS (@None string))) world_inbox))
  = requests (exec (acceptRequest (Some "abc123") "carol"
                      (replying SUCCESS (@None string)))
                (exec (declineRequest (Some "abc123") "bob"
                         (replying SUCCESS (@None string))) world_inbox)).
Proof.
  refine (proj2 (removals_commute (Some "abc123") "carol" "bob" None
                   world_inbox _)).
  reflexivity.
Defined.

(** X17: at most one message per invocation, and no success message
    without a [SUCCESS] envelope. Every controller operation shows at most
    one message in all; when its call did not resolve with [SUCCESS] it
    shows no success message; and when it did, it shows no error. *)
Theorem one_message_per_operation (tok : option string) (i : Invocation)
    (w : World) :
  let eff := effects (perform tok i) w in
  length (successes_shown eff) + length (errors_shown eff) <= 1
  /\ (if decide (resolved_status i = Some SUCCESS)
      then errors_shown eff = []
      else successes_shown eff = []).
Proof.
  destruct (truthy tok) eqn:Htok.
  - apply truthy_Some in Htok as (token & -> & Hs).
    destruct i as [r|r|target r|T JV sender r|T JV sender r|T friendId r];
      case_reply r; try destruct st; run_effects Hs; split; done || lia.
  - simpl. rewrite effects_none by (unfold exec; by rewrite perform_no_token).
    simpl. split; [lia|]. by case_decide.
Qed.

(** X18: what accepting and declining report. For a [FAILURE] envelope
    whose [data] is text, [acceptRequest] and [declineRequest] show that
    text, or their own generic text when [data] is absent or empty; every
    transport failure, the network unreachable or the body malformed, shows
    the same generic text, so the user cannot tell a refusal without text
    from a failed transport. *)
Theorem request_failure_texts (tok : option string) (sender : string)
    (d : option string) (reply : Reply string) (w : World) :
  truthy tok = true ->
  transport_failure reply = true ->
  let shown (generic : string) :=
    [match d with
     | Some text => if decide (text = "") then generic else text
     | None => generic
     end] in
  errors_shown (effects (acceptRequest tok sender (replying FAILURE d)) w)
    = shown "Помилка прийняття запиту"
  /\ errors_shown (effects (declineRequest tok sender (replying FAILURE d)) w)
    = shown "Помилка відхилення запиту"
  /\ errors_shown (effects (acceptRequest tok sender reply) w)
    = ["Помилка прийняття запиту"]
  /\ errors_shown (effects (declineRequest tok sender reply) w)
    = ["Помилка відхилення запиту"].
Proof.
  intros Htok Hreply shown. unfold shown.
  apply truthy_Some in Htok as (token & -> & Hs).
  split; [|split; [|split]].
  - run_effects Hs. by destruct d as [[|c text]|].
  - run_effects Hs. by destruct d as [[|c text]|].
  - case_reply reply; try discriminate Hreply; run_effects Hs; reflexivity.
  - case_reply reply; try discriminate Hreply; run_effects Hs; reflexivity.
Qed.

Lemma request_failure_texts_witness :
  errors_shown (effects (acceptRequest (Some "abc123") "carol"
                           (replying FAILURE (Some "no such request")))
                        world_inbox)
  = ["no such request"]
  /\ errors_shown (effects (acceptRequest (Some "abc123") "carol"
                              (malformed (T:=string)))
                           world_inbox)
     = ["Помилка прийняття запиту"].
Proof.
  destruct (request_failure_texts (Some "abc123") "carol"
              (Some "no such request") malformed world_inbox
              eq_refl eq_refl) as (Htext & _ & Hbad & _).
  exact (conj Htext Hbad).
Defined.
